(** * install_model.py: fetch a tokenizer and a config from the hub, save both

    The script is straight-line Python at module level:

      model_name = "meta-llama/Llama-2-7b-hf"
      tokenizer = AutoTokenizer.from_pretrained(model_name)
      config = AutoConfig.from_pretrained(model_name)
      tokenizer.save_pretrained('./llama2_tokenizer')
      config.save_pretrained('./llama2_config')

    It is embedded as a program over the four library calls it makes.  The
    library (transformers) is not part of the script: it is a parameter of
    the development, a [client] that answers each call by returning a value or
    raising.  A run starts once the import on line 2 has bound AutoTokenizer
    and AutoConfig, which is what having a client stands for.  Running the
    program against a client gives the list of calls made with their
    results, the way the script ended and the final state.  An exception is
    a fault of the library; left unhandled it ends the interpreter with
    status 1, and the end of the script ends it with status 0. *)

From Stdlib Require Import ZArith.
From stdpp Require Import base strings list gmap.

Open Scope string_scope.

(** ** The filesystem the save calls write to *)

Inductive node : Type :=
| Dir
| File (data : string).

Abbreviation FS := (gmap string node).

(** [under dir p]: the path [p] is the directory [dir] or lies below it. *)
Definition under (dir p : string) : bool :=
  String.eqb p dir || String.prefix (dir +:+ "/") p.

(** ** Programs over the calls of the script *)

Section Model.
Variables Tok Cfg Exn Hub : Type.

(** What a library call gives back: a value, or an exception. *)
Inductive result (X : Type) : Type :=
| Returned (x : X)
| Raised (e : Exn).

(** A program is a tree of library calls; each call binds its return
    value for the rest of the program. *)
Inductive prog (A : Type) : Type :=
| Ret (a : A)
| TokenizerFromPretrained (name : string) (k : Tok -> prog A)
| ConfigFromPretrained (name : string) (k : Cfg -> prog A)
| TokenizerSavePretrained (self : Tok) (save_directory : string) (k : unit -> prog A)
| ConfigSavePretrained (self : Cfg) (save_directory : string) (k : unit -> prog A).

Fixpoint prog_bind {A B : Type} (f : A -> prog B) (p : prog A) : prog B :=
  match p with
  | Ret _ a => f a
  | TokenizerFromPretrained _ n k =>
      TokenizerFromPretrained _ n (fun t => prog_bind f (k t))
  | ConfigFromPretrained _ n k =>
      ConfigFromPretrained _ n (fun g => prog_bind f (k g))
  | TokenizerSavePretrained _ t d k =>
      TokenizerSavePretrained _ t d (fun u => prog_bind f (k u))
  | ConfigSavePretrained _ g d k =>
      ConfigSavePretrained _ g d (fun u => prog_bind f (k u))
  end.

(** The state a run acts on: the filesystem, and everything the library
    keeps to itself (network, credentials, download cache). *)
Record world : Type := World { fs : FS; hub : Hub }.

(** The library.  The two fetches act on the library's own state, the two
    saves on the filesystem; each call gives a result and a new state, also
    when it raises (a save that fails half-way leaves what it wrote). *)
Record client : Type := Client {
  tok_from_pretrained : string -> Hub -> result Tok * Hub;
  cfg_from_pretrained : string -> Hub -> result Cfg * Hub;
  tok_save_pretrained : Tok -> string -> FS -> result unit * FS;
  cfg_save_pretrained : Cfg -> string -> FS -> result unit * FS
}.

(** One entry of the trace: a call that was made, and its result. *)
Inductive event : Type :=
| TokFetch (name : string) (r : result Tok)
| CfgFetch (name : string) (r : result Cfg)
| TokSave (self : Tok) (save_directory : string) (r : result unit)
| CfgSave (self : Cfg) (save_directory : string) (r : result unit).

(** How a run ends: the program ran to its end, or an exception reached
    the top level with no handler on the way. *)
Inductive outcome (A : Type) : Type :=
| Finished (a : A)
| Uncaught (e : Exn).

Record execution (A : Type) : Type := Execution {
  trace : list event;
  ending : outcome A;
  final : world
}.

Definition after {A : Type} (ev : event) (x : execution A) : execution A :=
  Execution A (ev :: trace A x) (ending A x) (final A x).

Definition abort {A : Type} (ev : event) (e : Exn) (w : world) : execution A :=
  Execution A [ev] (Uncaught A e) w.

(** Running a program: calls are made one after the other; a call that
    raises ends the run there, since the script has no try block. *)
Fixpoint exec {A : Type} (c : client) (p : prog A) (w : world) : execution A :=
  match p with
  | Ret _ a => Execution A [] (Finished A a) w
  | TokenizerFromPretrained _ n k =>
      let a := tok_from_pretrained c n (hub w) in
      let w' := World (fs w) (snd a) in
      match fst a with
      | Returned _ t => after (TokFetch n (fst a)) (exec c (k t) w')
      | Raised _ e => abort (TokFetch n (fst a)) e w'
      end
  | ConfigFromPretrained _ n k =>
      let a := cfg_from_pretrained c n (hub w) in
      let w' := World (fs w) (snd a) in
      match fst a with
      | Returned _ g => after (CfgFetch n (fst a)) (exec c (k g) w')
      | Raised _ e => abort (CfgFetch n (fst a)) e w'
      end
  | TokenizerSavePretrained _ t d k =>
      let a := tok_save_pretrained c t d (fs w) in
      let w' := World (snd a) (hub w) in
      match fst a with
      | Returned _ u => after (TokSave t d (fst a)) (exec c (k u) w')
      | Raised _ e => abort (TokSave t d (fst a)) e w'
      end
  | ConfigSavePretrained _ g d k =>
      let a := cfg_save_pretrained c g d (fs w) in
      let w' := World (snd a) (hub w) in
      match fst a with
      | Returned _ u => after (CfgSave g d (fst a)) (exec c (k u) w')
      | Raised _ e => abort (CfgSave g d (fst a)) e w'
      end
  end.

(** The interpreter's exit status: 0 when the script ran to its end, 1 when
    an exception was left unhandled. *)
Definition exit_status {A : Type} (o : outcome A) : Z :=
  match o with
  | Finished _ _ => 0
  | Uncaught _ _ => 1
  end.
End Model.

Arguments Returned {Exn X} x.
Arguments Raised {Exn X} e.
Arguments Ret {Tok Cfg A} a.
Arguments TokenizerFromPretrained {Tok Cfg A} name k.
Arguments ConfigFromPretrained {Tok Cfg A} name k.
Arguments TokenizerSavePretrained {Tok Cfg A} self save_directory k.
Arguments ConfigSavePretrained {Tok Cfg A} self save_directory k.
Arguments prog_bind {Tok Cfg A B} f p.
Arguments World {Hub} fs hub.
Arguments fs {Hub} w.
Arguments hub {Hub} w.
Arguments Client {Tok Cfg Exn Hub} _ _ _ _.
Arguments tok_from_pretrained {Tok Cfg Exn Hub} c name h.
Arguments cfg_from_pretrained {Tok Cfg Exn Hub} c name h.
Arguments tok_save_pretrained {Tok Cfg Exn Hub} c self save_directory f.
Arguments cfg_save_pretrained {Tok Cfg Exn Hub} c self save_directory f.
Arguments TokFetch {Tok Cfg Exn} name r.
Arguments CfgFetch {Tok Cfg Exn} name r.
Arguments TokSave {Tok Cfg Exn} self save_directory r.
Arguments CfgSave {Tok Cfg Exn} self save_directory r.
Arguments Finished {Exn A} a.
Arguments Uncaught {Exn A} e.
Arguments Execution {Tok Cfg Exn Hub A} trace ending final.
Arguments trace {Tok Cfg Exn Hub A} _.
Arguments ending {Tok Cfg Exn Hub A} _.
Arguments final {Tok Cfg Exn Hub A} _.
Arguments after {Tok Cfg Exn Hub A} ev x.
Arguments abort {Tok Cfg Exn Hub A} ev e w.
Arguments exec {Tok Cfg Exn Hub A} c p w.
Arguments exit_status {Exn A} o.

#[global] Instance prog_ret {Tok Cfg : Type} : MRet (prog Tok Cfg) :=
  fun A a => Ret a.
#[global] Instance prog_mbind {Tok Cfg : Type} : MBind (prog Tok Cfg) :=
  fun A B f p => prog_bind f p.

(** ** The script *)

Section Script.
Context {Tok Cfg : Type}.

(** AutoTokenizer.from_pretrained(name) *)
Definition AutoTokenizer_from_pretrained (name : string) : prog Tok Cfg Tok :=
  TokenizerFromPretrained name Ret.

(** AutoConfig.from_pretrained(name) *)
Definition AutoConfig_from_pretrained (name : string) : prog Tok Cfg Cfg :=
  ConfigFromPretrained name Ret.

(** tokenizer.save_pretrained(save_directory) *)
Definition tokenizer_save_pretrained (self : Tok) (save_directory : string)
  : prog Tok Cfg unit :=
  TokenizerSavePretrained self save_directory Ret.

(** config.save_pretrained(save_directory) *)
Definition config_save_pretrained (self : Cfg) (save_directory : string)
  : prog Tok Cfg unit :=
  ConfigSavePretrained self save_directory Ret.

Definition model_name : string := "meta-llama/Llama-2-7b-hf".

(** Lines 4 to 11 of install_model.py. *)
Definition install_model : prog Tok Cfg unit :=
  tokenizer ← AutoTokenizer_from_pretrained model_name;
  config ← AutoConfig_from_pretrained model_name;
  tokenizer_save_pretrained tokenizer "./llama2_tokenizer";;
  config_save_pretrained config "./llama2_config".
End Script.

(** Running the script from a state [w] against a client [c]. *)
Definition run {Tok Cfg Exn Hub : Type}
    (c : client Tok Cfg Exn Hub) (w : world Hub) : execution Tok Cfg Exn Hub unit :=
  exec c install_model w.

(** ** What a trace shows *)

(** The four operations of the script, without their arguments. *)
Inductive op : Type :=
| FetchTokenizer
| FetchConfig
| SaveTokenizer
| SaveConfig.

(** The order the script text puts them in. *)
Definition four_steps : list op :=
  [FetchTokenizer; FetchConfig; SaveTokenizer; SaveConfig].

(** The first element of a list for which [f] gives something. *)
Fixpoint first_some {A B : Type} (f : A -> option B) (l : list A) : option B :=
  match l with
  | [] => None
  | a :: l' => match f a with Some b => Some b | None => first_some f l' end
  end.

Section Observations.
Context {Tok Cfg Exn Hub : Type}.
Implicit Types (ev : event Tok Cfg Exn) (tr : list (event Tok Cfg Exn)).
Implicit Types (c : client Tok Cfg Exn Hub) (w : world Hub).

Definition op_of ev : op :=
  match ev with
  | TokFetch _ _ => FetchTokenizer
  | CfgFetch _ _ => FetchConfig
  | TokSave _ _ _ => SaveTokenizer
  | CfgSave _ _ _ => SaveConfig
  end.

Definition ops tr : list op := map op_of tr.

Definition raised {X : Type} (r : result Exn X) : option Exn :=
  match r with
  | Returned _ => None
  | Raised e => Some e
  end.

(** The exception a call ended with, if it raised. *)
Definition raised_of ev : option Exn :=
  match ev with
  | TokFetch _ r => raised r
  | CfgFetch _ r => raised r
  | TokSave _ _ r => raised r
  | CfgSave _ _ r => raised r
  end.

Definition is_fetch ev : bool :=
  match ev with
  | TokFetch _ _ | CfgFetch _ _ => true
  | TokSave _ _ _ | CfgSave _ _ _ => false
  end.

Definition is_save ev : bool := negb (is_fetch ev).

(** The identifier a fetch was asked for. *)
Definition fetched_name ev : option string :=
  match ev with
  | TokFetch n _ | CfgFetch n _ => Some n
  | TokSave _ _ _ | CfgSave _ _ _ => None
  end.

(** The directory a save was pointed at. *)
Definition saved_to ev : option string :=
  match ev with
  | TokFetch _ _ | CfgFetch _ _ => None
  | TokSave _ d _ | CfgSave _ d _ => Some d
  end.

(** The config pipeline as the trace shows it: what the config fetch gave,
    and which handle was handed to the config save for which directory. *)
Definition config_obtained tr : option (result Exn Cfg) :=
  first_some (fun ev =>
    match ev with CfgFetch _ r => Some r | _ => None end) tr.

Definition config_saved tr : option (Cfg * string) :=
  first_some (fun ev =>
    match ev with CfgSave g d _ => Some (g, d) | _ => None end) tr.

Definition tokenizer_obtained tr : option (result Exn Tok) :=
  first_some (fun ev =>
    match ev with TokFetch _ r => Some r | _ => None end) tr.

Definition tokenizer_saved tr : option (Tok * string) :=
  first_some (fun ev =>
    match ev with TokSave t d _ => Some (t, d) | _ => None end) tr.

(** The filesystem obtained by applying, in order, the save calls of a
    trace and nothing else. *)
Definition replay_saves c tr (f : FS) : FS :=
  foldl (fun f ev =>
    match ev with
    | TokSave t d _ => snd (tok_save_pretrained c t d f)
    | CfgSave g d _ => snd (cfg_save_pretrained c g d f)
    | TokFetch _ _ | CfgFetch _ _ => f
    end) f tr.

(** *** States along a run of the script *)

Definition hub1 c w : Hub := snd (tok_from_pretrained c model_name (hub w)).
Definition hub2 c w : Hub := snd (cfg_from_pretrained c model_name (hub1 c w)).
Definition fs1 c w (t : Tok) : FS :=
  snd (tok_save_pretrained c t "./llama2_tokenizer" (fs w)).
Definition fs2 c w (t : Tok) (g : Cfg) : FS :=
  snd (cfg_save_pretrained c g "./llama2_config" (fs1 c w t)).

(** What the hub answers to the script's two fetches from a given state of
    the library; the config is asked for only once the tokenizer came. *)
Definition hub_answers c (h : Hub) : result Exn Tok * option (result Exn Cfg) :=
  let a := tok_from_pretrained c model_name h in
  (fst a,
   match fst a with
   | Returned _ => Some (fst (cfg_from_pretrained c model_name (snd a)))
   | Raised _ => None
   end).

(** Some fetch of the script fails from the state [w]. *)
Definition fetch_fails c w : Prop :=
  (exists e, fst (tok_from_pretrained c model_name (hub w)) = Raised e) \/
  (exists e, fst (cfg_from_pretrained c model_name (hub1 c w)) = Raised e).

(** *** Contracts a library may or may not honour *)

(** A save touches nothing outside the directory it is given. *)
Definition save_confined c : Prop :=
  forall (d p : string) (f : FS), ¬ under d p ->
    (forall t, snd (tok_save_pretrained c t d f) !! p = f !! p) /\
    (forall g, snd (cfg_save_pretrained c g d f) !! p = f !! p).

(** A save that returns leaves its directory in place. *)
Definition save_creates c : Prop :=
  forall (d : string) (f : FS),
    (forall t, fst (tok_save_pretrained c t d f) = Returned tt ->
               snd (tok_save_pretrained c t d f) !! d = Some Dir) /\
    (forall g, fst (cfg_save_pretrained c g d f) = Returned tt ->
               snd (cfg_save_pretrained c g d f) !! d = Some Dir).

(** A save looks at nothing but its own directory: on two filesystems that
    agree under the directory it ends the same way and leaves the same
    content under it. *)
Definition save_local c : Prop :=
  forall (d : string) (f f' : FS),
    (forall p, under d p -> f !! p = f' !! p) ->
    (forall t, fst (tok_save_pretrained c t d f) = fst (tok_save_pretrained c t d f') /\
               forall p, under d p ->
                 snd (tok_save_pretrained c t d f) !! p
                 = snd (tok_save_pretrained c t d f') !! p) /\
    (forall g, fst (cfg_save_pretrained c g d f) = fst (cfg_save_pretrained c g d f') /\
               forall p, under d p ->
                 snd (cfg_save_pretrained c g d f) !! p
                 = snd (cfg_save_pretrained c g d f') !! p).

(** A save overwrites its destination: made again over a directory that
    holds what a returned save of the same handle left there, it returns and
    leaves the directory as it is.  This holds of a save that replaces the
    directory and of one that writes its files beside those already there;
    nothing is asked of a save that raises. *)
Definition resave_is_noop c : Prop :=
  forall (d : string) (f f' : FS),
    (forall t, fst (tok_save_pretrained c t d f) = Returned tt ->
               (forall p, under d p ->
                  f' !! p = snd (tok_save_pretrained c t d f) !! p) ->
               fst (tok_save_pretrained c t d f') = Returned tt /\
               forall p, under d p ->
                 snd (tok_save_pretrained c t d f') !! p = f' !! p) /\
    (forall g, fst (cfg_save_pretrained c g d f) = Returned tt ->
               (forall p, under d p ->
                  f' !! p = snd (cfg_save_pretrained c g d f) !! p) ->
               fst (cfg_save_pretrained c g d f') = Returned tt /\
               forall p, under d p ->
                 snd (cfg_save_pretrained c g d f') !! p = f' !! p).

(** *** The five ways a run of the script can go *)

Inductive run_case c w : Prop :=
| tokenizer_fetch_raises e
    (Htok : fst (tok_from_pretrained c model_name (hub w)) = Raised e)
    (Hrun : run c w =
      Execution [TokFetch model_name (Raised e)] (Uncaught e)
                (World (fs w) (hub1 c w)))
| config_fetch_raises t e
    (Htok : fst (tok_from_pretrained c model_name (hub w)) = Returned t)
    (Hcfg : fst (cfg_from_pretrained c model_name (hub1 c w)) = Raised e)
    (Hrun : run c w =
      Execution [TokFetch model_name (Returned t); CfgFetch model_name (Raised e)]
                (Uncaught e) (World (fs w) (hub2 c w)))
| tokenizer_save_raises t g e
    (Htok : fst (tok_from_pretrained c model_name (hub w)) = Returned t)
    (Hcfg : fst (cfg_from_pretrained c model_name (hub1 c w)) = Returned g)
    (Hst : fst (tok_save_pretrained c t "./llama2_tokenizer" (fs w)) = Raised e)
    (Hrun : run c w =
      Execution [TokFetch model_name (Returned t); CfgFetch model_name (Returned g);
                 TokSave t "./llama2_tokenizer" (Raised e)]
                (Uncaught e) (World (fs1 c w t) (hub2 c w)))
| config_save_raises t g e
    (Htok : fst (tok_from_pretrained c model_name (hub w)) = Returned t)
    (Hcfg : fst (cfg_from_pretrained c model_name (hub1 c w)) = Returned g)
    (Hst : fst (tok_save_pretrained c t "./llama2_tokenizer" (fs w)) = Returned tt)
    (Hsc : fst (cfg_save_pretrained c g "./llama2_config" (fs1 c w t)) = Raised e)
    (Hrun : run c w =
      Execution [TokFetch model_name (Returned t); CfgFetch model_name (Returned g);
                 TokSave t "./llama2_tokenizer" (Returned tt);
                 CfgSave g "./llama2_config" (Raised e)]
                (Uncaught e) (World (fs2 c w t g) (hub2 c w)))
| all_return t g
    (Htok : fst (tok_from_pretrained c model_name (hub w)) = Returned t)
    (Hcfg : fst (cfg_from_pretrained c model_name (hub1 c w)) = Returned g)
    (Hst : fst (tok_save_pretrained c t "./llama2_tokenizer" (fs w)) = Returned tt)
    (Hsc : fst (cfg_save_pretrained c g "./llama2_config" (fs1 c w t)) = Returned tt)
    (Hrun : run c w =
      Execution [TokFetch model_name (Returned t); CfgFetch model_name (Returned g);
                 TokSave t "./llama2_tokenizer" (Returned tt);
                 CfgSave g "./llama2_config" (Returned tt)]
                (Finished tt) (World (fs2 c w t g) (hub2 c w))).
End Observations.

(** ** A hub client to test against

    An in-memory hub: a table from model identifiers to the files of the
    tokenizer and of the config, either of which may be missing.  A fetch of
    what is not there raises; a save replaces the destination directory by
    the files of the handle. *)

Module Mock.
Definition files : Type := list (string * string).

Record repo : Type := Repo {
  tokenizer_files : option files;
  config_files : option files
}.

Abbreviation hub_state := (gmap string repo).

Definition fetch_tokenizer (name : string) (h : hub_state)
  : result string files * hub_state :=
  match h !! name with
  | Some (Repo (Some t) _) => (Returned t, h)
  | _ => (Raised "not found", h)
  end.

Definition fetch_config (name : string) (h : hub_state)
  : result string files * hub_state :=
  match h !! name with
  | Some (Repo _ (Some g)) => (Returned g, h)
  | _ => (Raised "not found", h)
  end.

Definition entries (d : string) (fl : files) : list (string * node) :=
  (d, Dir) :: map (fun nf => (d +:+ "/" +:+ fst nf, File (snd nf))) fl.

Definition write_dir (d : string) (fl : files) (f : FS) : FS :=
  list_to_map (entries d fl) ∪ filter (fun kv => ¬ under d (fst kv)) f.

Definition save (fl : files) (d : string) (f : FS) : result string unit * FS :=
  (Returned tt, write_dir d fl f).

(** A save on a disk that refuses every write. *)
Definition save_denied (fl : files) (d : string) (f : FS) : result string unit * FS :=
  (Raised "permission denied", f).

Definition hub_client : client files files string hub_state :=
  Client fetch_tokenizer fetch_config save save.

Definition readonly_client : client files files string hub_state :=
  Client fetch_tokenizer fetch_config save_denied save_denied.

(** A client whose tokenizer save is refused while its config save works. *)
Definition half_denied_client : client files files string hub_state :=
  Client fetch_tokenizer fetch_config save_denied save.




(** A save that fails the first time, leaving only the directory it made,
    and works once the directory is there. *)
Definition save_partial (fl : files) (d : string) (f : FS) : result string unit * FS :=
  match f !! d with
  | None => (Raised "disk full", <[d := Dir]> f)
  | Some _ => (Returned tt, write_dir d fl f)
  end.

(** A client whose config save is of that kind. *)
Definition partial_client : client files files string hub_state :=
  Client fetch_tokenizer fetch_config save save_partial.

Definition llama_tokenizer : files :=
  [("tokenizer.model", "sentencepiece"); ("tokenizer_config.json", "{}")].
Definition llama_config : files := [("config.json", "{hidden_size: 4096}")].

(** A hub that has the model, one that has only its config, one that has
    only its tokenizer, the empty hub, and one with another tokenizer. *)
Definition full_hub : hub_state :=
  {[ "meta-llama/Llama-2-7b-hf" := Repo (Some llama_tokenizer) (Some llama_config) ]}.
Definition tokenizer_only_hub : hub_state :=
  {[ "meta-llama/Llama-2-7b-hf" := Repo (Some llama_tokenizer) None ]}.
Definition empty_hub : hub_state := ∅.


(** A run directory that is empty, and one that holds a file of the user. *)
Definition fresh (h : hub_state) : world hub_state := World ∅ h.

Definition with_notes (h : hub_state) : world hub_state :=
  World {[ "./notes.txt" := File "keep" ]} h.
End Mock.

(** * Properties *)

Section RunCases.
Context {Tok Cfg Exn Hub : Type}.
Implicit Types (c : client Tok Cfg Exn Hub) (w : world Hub).

(** The script unfolded: its four calls, each binding the next. *)
Lemma install_model_unfold :
  @install_model Tok Cfg =
  TokenizerFromPretrained model_name (fun tokenizer =>
  ConfigFromPretrained model_name (fun config =>
  TokenizerSavePretrained tokenizer "./llama2_tokenizer" (fun _ =>
  ConfigSavePretrained config "./llama2_config" Ret))).
Proof. reflexivity. Qed.

(** Every run of the script is one of the five cases of [run_case]. *)
Lemma run_cases c w : run_case c w.
Proof.
  destruct (fst (tok_from_pretrained c model_name (hub w))) as [t|e] eqn:Htok.
  2:{ eapply tokenizer_fetch_raises; [exact Htok|].
      unfold run. rewrite install_model_unfold. cbn [exec]. rewrite Htok.
      reflexivity. }
  destruct (fst (cfg_from_pretrained c model_name (hub1 c w))) as [g|e] eqn:Hcfg.
  2:{ eapply config_fetch_raises; [exact Htok|exact Hcfg|].
      unfold run. rewrite install_model_unfold. cbn [exec]. rewrite Htok.
      cbn [hub fs]. fold (hub1 c w). rewrite Hcfg. reflexivity. }
  destruct (fst (tok_save_pretrained c t "./llama2_tokenizer" (fs w)))
    as [[]|e] eqn:Hst.
  2:{ eapply tokenizer_save_raises; [exact Htok|exact Hcfg|exact Hst|].
      unfold run. rewrite install_model_unfold. cbn [exec]. rewrite Htok.
      cbn [hub fs]. fold (hub1 c w). rewrite Hcfg. cbn [hub fs].
      rewrite Hst. reflexivity. }
  destruct (fst (cfg_save_pretrained c g "./llama2_config" (fs1 c w t)))
    as [[]|e] eqn:Hsc.
  2:{ eapply config_save_raises; [exact Htok|exact Hcfg|exact Hst|exact Hsc|].
      unfold run. rewrite install_model_unfold. cbn [exec]. rewrite Htok.
      cbn [hub fs]. fold (hub1 c w). rewrite Hcfg. cbn [hub fs].
      rewrite Hst. cbn [hub fs]. fold (fs1 c w t). rewrite Hsc. reflexivity. }
  eapply all_return; [exact Htok|exact Hcfg|exact Hst|exact Hsc|].
  unfold run. rewrite install_model_unfold. cbn [exec]. rewrite Htok.
  cbn [hub fs]. fold (hub1 c w). rewrite Hcfg. cbn [hub fs].
  rewrite Hst. cbn [hub fs]. fold (fs1 c w t). rewrite Hsc. reflexivity.
Qed.
End RunCases.

(** ** Paths *)

Lemma prefix_append (s t : string) : String.prefix s (s +:+ t) = true.
Proof.
  induction s as [|a s IH]; simpl.
  - by destruct t.
  - destruct (Ascii.ascii_dec a a); [exact IH | done].
Qed.

(** Two prefixes of one string are prefixes of one another, one way or the
    other. *)
Lemma prefix_comparable (s1 s2 p : string) :
  String.prefix s1 p = true -> String.prefix s2 p = true ->
  String.prefix s1 s2 = true \/ String.prefix s2 s1 = true.
Proof.
  revert s2 p. induction s1 as [|a s1 IH]; intros s2 p H1 H2.
  - left. by destruct s2.
  - destruct s2 as [|b s2]; [by right|].
    destruct p as [|x p]; [done|]. simpl in *.
    destruct (Ascii.ascii_dec a x) as [->|]; [|done].
    destruct (Ascii.ascii_dec b x) as [->|]; [|done].
    destruct (Ascii.ascii_dec x x); [|done].
    by apply IH with p.
Qed.

Lemma under_self (d : string) : under d d.
Proof. unfold under. by rewrite String.eqb_refl. Qed.

Lemma prefix_append_both (d s n : string) :
  String.prefix (d +:+ s) (d +:+ s +:+ n) = true.
Proof.
  induction d as [|a d IH].
  - exact (prefix_append s n).
  - change (String.prefix (String a (d +:+ s)) (String a (d +:+ s +:+ n)) = true).
    simpl. destruct (Ascii.ascii_dec a a); [exact IH | done].
Qed.

Lemma under_child (d n : string) : under d (d +:+ "/" +:+ n).
Proof.
  unfold under. rewrite prefix_append_both. by rewrite orb_true_r.
Qed.

(** No path is under both destination directories of the script. *)
Lemma destinations_disjoint (p : string) :
  under "./llama2_tokenizer" p -> under "./llama2_config" p -> False.
Proof.
  unfold under. rewrite !orb_True. intros [Ht|Ht] [Hc|Hc].
  - apply Is_true_true, String.eqb_eq in Ht, Hc. by subst.
  - apply Is_true_true, String.eqb_eq in Ht. by subst.
  - apply Is_true_true, String.eqb_eq in Hc. by subst.
  - apply Is_true_true in Ht, Hc.
    by destruct (prefix_comparable _ _ _ Ht Hc).
Qed.

(** ** The script's runs *)

(** Case analysis on a run, with the run rewritten to its explicit form. *)
Ltac by_cases c w :=
  destruct (run_cases c w)
    as [e Htok Hrun|t e Htok Hcfg Hrun|t g e Htok Hcfg Hst Hrun
       |t g e Htok Hcfg Hst Hsc Hrun|t g Htok Hcfg Hst Hsc Hrun];
  rewrite ?Hrun in *; cbn [trace ending final fs hub] in *.

(** The same for a second run in the same proof. *)
Ltac by_cases2 c w :=
  destruct (run_cases c w)
    as [e2 Htok2 Hrun2|t2 e2 Htok2 Hcfg2 Hrun2|t2 g2 e2 Htok2 Hcfg2 Hst2 Hrun2
       |t2 g2 e2 Htok2 Hcfg2 Hst2 Hsc2 Hrun2|t2 g2 Htok2 Hcfg2 Hst2 Hsc2 Hrun2];
  rewrite ?Hrun2 in *; cbn [trace ending final fs hub] in *.

(** Membership in, and lookup into, a trace written out in full. *)
Ltac in_trace H :=
  repeat (apply elem_of_cons in H as [H|H]; [|]);
  try (by apply elem_of_nil in H).

Ltac trace_has :=
  solve [repeat (apply elem_of_cons; first [left; reflexivity | right])].

(** From "no call of the trace raised" and a call of the trace that did. *)
Ltac refute H ev :=
  let Hn := fresh in
  assert (Hn : raised_of ev = None) by (apply H; trace_has);
  discriminate Hn.

Ltac at_index i H :=
  repeat (destruct i as [|i]; [cbn in H; injection H as H; try subst|]);
  try (by cbn in H).


Section Runs.
Context {Tok Cfg Exn Hub : Type}.
Implicit Types (c : client Tok Cfg Exn Hub) (w : world Hub).
Implicit Types (ev : event Tok Cfg Exn).

(** C1 (as amended): in every run the operations carried out are an initial
    segment of the script's four, in the script's order; the segment is all
    four when the run reaches its end; it stops short only at a call that
    raised, and every call before the last one made returned. *)
Theorem install_model_steps c w :
  ops (trace (run c w)) `prefix_of` four_steps /\
  (ending (run c w) = Finished tt -> ops (trace (run c w)) = four_steps) /\
  (ops (trace (run c w)) ≠ four_steps ->
     exists ev e, last (trace (run c w)) = Some ev /\ raised_of ev = Some e /\
                  ending (run c w) = Uncaught e) /\
  (forall i ev, trace (run c w) !! i = Some ev ->
     S i < length (trace (run c w)) -> raised_of ev = None).
Proof.
  by_cases c w; (split; [by eexists | split; [done | split]]).
  all: try (intros _; eexists _, e; by repeat split).
  all: try (intros H; by destruct H).
  all: intros i ev H Hlt; cbn in Hlt; at_index i H; try done; lia.
Qed.

(** C2: every fetch of a run is asked for the script's one identifier, so
    a config fetch follows a tokenizer fetch of the same identifier; what a
    save is given is what the fetch of that identifier returned; in a run
    that reaches its end both fetches were made, with that identifier. *)
Theorem same_identifier c w :
  (forall n1 r1 n2 r2,
     TokFetch n1 r1 ∈ trace (run c w) -> CfgFetch n2 r2 ∈ trace (run c w) ->
     n1 = n2) /\
  (forall n r, CfgFetch n r ∈ trace (run c w) ->
     exists t, TokFetch n (Returned t) ∈ trace (run c w)) /\
  (forall t d r, TokSave t d r ∈ trace (run c w) ->
     TokFetch model_name (Returned t) ∈ trace (run c w) /\
     fst (tok_from_pretrained c model_name (hub w)) = Returned t) /\
  (forall g d r, CfgSave g d r ∈ trace (run c w) ->
     CfgFetch model_name (Returned g) ∈ trace (run c w) /\
     fst (cfg_from_pretrained c model_name (hub1 c w)) = Returned g) /\
  (ending (run c w) = Finished tt ->
     exists t g, tokenizer_obtained (trace (run c w)) = Some (Returned t) /\
                 config_obtained (trace (run c w)) = Some (Returned g) /\
                 tokenizer_saved (trace (run c w)) = Some (t, "./llama2_tokenizer") /\
                 config_saved (trace (run c w)) = Some (g, "./llama2_config")).
Proof.
  split_and!.
  - intros n1 r1 n2 r2 H1 H2. by_cases c w; in_trace H1; in_trace H2; congruence.
  - intros n r H. by_cases c w; in_trace H; try discriminate;
      injection H as -> ->; eexists; trace_has.
  - intros t' d r H. by_cases c w; in_trace H; try discriminate;
      injection H as -> -> ->; (split; [trace_has | done]).
  - intros g' d r H. by_cases c w; in_trace H; try discriminate;
      injection H as -> -> ->; (split; [trace_has | done]).
  - intros H. by_cases c w; try discriminate. by eexists t, g.
Qed.
(** C3: every fetch of a run asks for "meta-llama/Llama-2-7b-hf", every
    tokenizer save goes to "./llama2_tokenizer" and every config save to
    "./llama2_config"; a run that reaches its end made the two fetches and
    the two saves with exactly these strings; the two directories differ,
    and no path lies under both. *)
Theorem script_literals c w :
  (forall ev, ev ∈ trace (run c w) ->
     match ev with
     | TokFetch n _ | CfgFetch n _ => n = "meta-llama/Llama-2-7b-hf"
     | TokSave _ d _ => d = "./llama2_tokenizer"
     | CfgSave _ d _ => d = "./llama2_config"
     end) /\
  (ending (run c w) = Finished tt ->
     omap fetched_name (trace (run c w))
       = ["meta-llama/Llama-2-7b-hf"; "meta-llama/Llama-2-7b-hf"] /\
     omap saved_to (trace (run c w))
       = ["./llama2_tokenizer"; "./llama2_config"]) /\
  "./llama2_tokenizer" ≠ "./llama2_config" /\
  (forall p, under "./llama2_tokenizer" p -> under "./llama2_config" p -> False).
Proof.
  split_and!.
  - intros ev H. by_cases c w; in_trace H; by subst.
  - intros H. by_cases c w; by try discriminate.
  - done.
  - apply destinations_disjoint.
Qed.

(** C4: a call that raises is the last call of the run, the run ends with
    that very exception unhandled, and the exit status is not zero; when no
    call raises, all four calls were made and the exit status is zero. *)
Theorem no_failure_is_caught c w :
  (forall i ev e, trace (run c w) !! i = Some ev -> raised_of ev = Some e ->
     ending (run c w) = Uncaught e /\
     length (trace (run c w)) = S i /\
     exit_status (ending (run c w)) ≠ 0%Z) /\
  ((forall ev, ev ∈ trace (run c w) -> raised_of ev = None) ->
     ops (trace (run c w)) = four_steps /\
     ending (run c w) = Finished tt /\
     exit_status (ending (run c w)) = 0%Z).
Proof.
  split.
  - intros i ev e' H Hr.
    by_cases c w; at_index i H; cbn in Hr; try discriminate;
      injection Hr as ->; done.
  - intros H. by_cases c w; try done; exfalso.
    + by refute H (TokFetch (Cfg:=Cfg) model_name (Raised e : result Exn Tok)).
    + by refute H (CfgFetch (Tok:=Tok) model_name (Raised e : result Exn Cfg)).
    + by refute H (TokSave (Cfg:=Cfg) t "./llama2_tokenizer" (Raised e)).
    + by refute H (CfgSave (Tok:=Tok) g "./llama2_config" (Raised e)).
Qed.

(** C5: when a fetch of the script fails, the exit status is not zero, no
    save call is made, and the filesystem is what it was: neither
    destination directory is populated. *)
Theorem failed_fetch_saves_nothing c w :
  fetch_fails c w ->
  exit_status (ending (run c w)) ≠ 0%Z /\
  (forall ev, ev ∈ trace (run c w) -> is_save ev = false) /\
  fs (final (run c w)) = fs w.
Proof.
  intros [[e' Hf]|[e' Hf]]; by_cases c w; try congruence.
  all: split; [done|]; split; [|done].
  all: intros ev H; in_trace H; by subst.
Qed.

(** C9: in every trace each fetch comes before each save, and a fetch
    followed by a save returned; a save is made only after both fetches
    returned; if a fetch raised, the config fetch after a successful
    tokenizer fetch included, no save is made and the filesystem is the one
    the run started from. *)
Theorem fetches_before_saves c w :
  (forall i j ev ev',
     trace (run c w) !! i = Some ev -> trace (run c w) !! j = Some ev' ->
     is_fetch ev -> is_save ev' -> i < j /\ raised_of ev = None) /\
  (forall ev, ev ∈ trace (run c w) -> is_save ev ->
     exists t g, trace (run c w) !! 0 = Some (TokFetch model_name (Returned t)) /\
                 trace (run c w) !! 1 = Some (CfgFetch model_name (Returned g))) /\
  (forall ev e, ev ∈ trace (run c w) -> is_fetch ev -> raised_of ev = Some e ->
     (forall ev', ev' ∈ trace (run c w) -> is_save ev' = false) /\
     fs (final (run c w)) = fs w) /\
  (forall t e,
     fst (tok_from_pretrained c model_name (hub w)) = Returned t ->
     fst (cfg_from_pretrained c model_name (hub1 c w)) = Raised e ->
     trace (run c w)
       = [TokFetch model_name (Returned t); CfgFetch model_name (Raised e)] /\
     fs (final (run c w)) = fs w).
Proof.
  split_and!.
  - intros i j ev ev' Hi Hj Hf Hs.
    by_cases c w; at_index i Hi; try done; at_index j Hj; try done;
      (split; [lia | done]).
  - intros ev H Hs. by_cases c w; in_trace H; subst; try done; by eexists _, _.
  - intros ev e' H Hf Hr.
    by_cases c w; in_trace H; subst; try done; cbn in Hr; try discriminate.
    all: split; [|done].
    all: intros ev' H'; in_trace H'; by subst.
  - intros t' e' Ht Hc. by_cases c w; try congruence.
    split; [|done]. congruence.
Qed.
End Runs.

(** ** The test client honours the save contracts *)

Module MockFacts.
Import Mock.

Lemma entries_outside (d : string) (fl : files) (p : string) :
  ¬ under d p -> (list_to_map (entries d fl) : FS) !! p = None.
Proof.
  intros Hp. unfold entries. cbn [list_to_map foldr fst snd uncurry].
  rewrite lookup_insert_ne by (intros <-; apply Hp, under_self).
  induction fl as [|[n data] fl IH]; cbn.
  - apply lookup_empty.
  - rewrite lookup_insert_ne; [exact IH|].
    intros <-. apply Hp, under_child.
Qed.

Lemma write_dir_outside (d : string) (fl : files) (f : FS) (p : string) :
  ¬ under d p -> write_dir d fl f !! p = f !! p.
Proof.
  intros Hp. unfold write_dir.
  rewrite lookup_union_r by (by apply entries_outside).
  destruct (f !! p) as [x|] eqn:Hf.
  - by apply map_lookup_filter_Some_2.
  - apply map_lookup_filter_None_2. by left.
Qed.

Lemma write_dir_inside (d : string) (fl : files) (f : FS) (p : string) :
  under d p -> write_dir d fl f !! p = (list_to_map (entries d fl) : FS) !! p.
Proof.
  intros Hp. unfold write_dir. apply lookup_union_l.
  apply map_lookup_filter_None_2. right. intros x _ Hn. by apply Hn.
Qed.

Lemma write_dir_creates (d : string) (fl : files) (f : FS) :
  write_dir d fl f !! d = Some Dir.
Proof.
  rewrite write_dir_inside by apply under_self.
  unfold entries. cbn [list_to_map foldr fst snd uncurry].
  apply lookup_insert_eq.
Qed.

Lemma hub_client_confined : save_confined hub_client.
Proof. intros d p f Hp. split; intros; by apply write_dir_outside. Qed.

Lemma hub_client_creates : save_creates hub_client.
Proof. intros d f. split; intros; apply write_dir_creates. Qed.

Lemma hub_client_local : save_local hub_client.
Proof.
  intros d f f' _. split; intros fl; (split; [done|]); intros p Hp;
    cbn [hub_client tok_save_pretrained cfg_save_pretrained save snd];
    by rewrite !write_dir_inside.
Qed.

Lemma hub_client_resave : resave_is_noop hub_client.
Proof.
  intros d f f'. split; intros fl _ Hf'; (split; [done|]); intros p Hp;
    rewrite (Hf' p Hp);
    cbn [hub_client tok_save_pretrained cfg_save_pretrained save snd];
    by rewrite !write_dir_inside.
Qed.

(** The merging save. *)





(** The save that fails the first time. *)

Lemma partial_client_confined : save_confined partial_client.
Proof.
  intros d p f Hp. split; intros fl; [by apply write_dir_outside|].
  cbn [partial_client cfg_save_pretrained]. unfold save_partial.
  destruct (f !! d) eqn:Hd; cbn [snd].
  - by apply write_dir_outside.
  - apply lookup_insert_ne. intros <-. apply Hp, under_self.
Qed.


End MockFacts.

(** ** What a run leaves on the filesystem *)

Section Effects.
Context {Tok Cfg Exn Hub : Type}.
Implicit Types (c : client Tok Cfg Exn Hub) (w : world Hub).
Implicit Types (ev : event Tok Cfg Exn).

Lemma tokenizer_dir_not_in_config_dir : ¬ under "./llama2_config" "./llama2_tokenizer".
Proof. intros H. apply (destinations_disjoint _ (under_self _) H). Qed.

(** C8: the saves of a run go to the script's two directories and nowhere
    else; the final filesystem is the initial one with the save calls of
    the trace applied, nothing more; with saves that keep to their
    directory, every path outside the two directories is as it was; and
    with saves that create their directory, both directories are there
    after a run that reached its end. *)
Theorem saves_are_the_only_writes c w :
  (forall ev, ev ∈ trace (run c w) -> is_save ev ->
     saved_to ev = Some "./llama2_tokenizer" \/
     saved_to ev = Some "./llama2_config") /\
  fs (final (run c w)) = replay_saves c (trace (run c w)) (fs w) /\
  (save_confined c ->
     forall p, ¬ under "./llama2_tokenizer" p -> ¬ under "./llama2_config" p ->
       fs (final (run c w)) !! p = fs w !! p) /\
  (save_confined c -> save_creates c -> ending (run c w) = Finished tt ->
     fs (final (run c w)) !! "./llama2_tokenizer" = Some Dir /\
     fs (final (run c w)) !! "./llama2_config" = Some Dir).
Proof.
  split_and!.
  - intros ev H Hs. by_cases c w; in_trace H; subst; try done; auto.
  - by by_cases c w.
  - intros Hconf p Ht Hc. unfold fs2, fs1.
    by_cases c w; try done.
    + by apply (Hconf _ _ (fs w) Ht).
    + unfold fs2, fs1.
      rewrite (proj2 (Hconf _ _ _ Hc)). by apply (Hconf _ _ (fs w) Ht).
    + unfold fs2, fs1.
      rewrite (proj2 (Hconf _ _ _ Hc)). by apply (Hconf _ _ (fs w) Ht).
  - intros Hconf Hcr H. by_cases c w; try discriminate. unfold fs2. split.
    + rewrite (proj2 (Hconf _ _ _ tokenizer_dir_not_in_config_dir)).
      by apply (Hcr "./llama2_tokenizer" (fs w)).
    + by apply (Hcr "./llama2_config" (fs1 c w t)).
Qed.

(** Rewrite the fetch results known from the case analysis into [H]. *)
Ltac answers H :=
  unfold hub_answers, hub1, hub2 in *; cbn [hub fs] in *;
  repeat match type of H with
  | context [fst ?x] =>
      match goal with E : fst x = _ |- _ => rewrite E in H end
  end;
  simplify_eq/=.





(** C10: two runs in which the hub gives the same answers, the saves act
    the same way and the filesystem starts the same make the same calls
    with the same results, end the same way with the same exit status, and
    leave the same filesystem: nothing else enters a run. *)
Theorem same_answers_same_run (c1 c2 : client Tok Cfg Exn Hub) (w1 w2 : world Hub) :
  hub_answers c1 (hub w1) = hub_answers c2 (hub w2) ->
  (forall t d f, tok_save_pretrained c1 t d f = tok_save_pretrained c2 t d f) ->
  (forall g d f, cfg_save_pretrained c1 g d f = cfg_save_pretrained c2 g d f) ->
  fs w1 = fs w2 ->
  trace (run c1 w1) = trace (run c2 w2) /\
  ending (run c1 w1) = ending (run c2 w2) /\
  exit_status (ending (run c1 w1)) = exit_status (ending (run c2 w2)) /\
  fs (final (run c1 w1)) = fs (final (run c2 w2)).
Proof.
  intros Hans Ht Hc Hfs.
  by_cases c1 w1; by_cases2 c2 w2; answers Hans; unfold fs2, fs1 in *.
  all: rewrite ?Hfs, ?Ht, ?Hc in *.
  all: try congruence.
  all: split_and!; congruence.
Qed.

End Effects.


(** ** The properties on the test client *)

Import Mock.

(** C1, as first stated (four operations in every run), fails: on the empty
    hub the tokenizer fetch raises and it is the only operation of the run. *)
Lemma four_steps_not_in_every_run :
  ops (trace (run hub_client (fresh empty_hub))) = [FetchTokenizer] /\
  ops (trace (run hub_client (fresh empty_hub))) ≠ four_steps.
Proof. split; [reflexivity | discriminate]. Qed.

Lemma install_model_steps_witness :
  ops (trace (run hub_client (fresh full_hub))) = four_steps.
Proof.
  apply (proj1 (proj2 (install_model_steps hub_client (fresh full_hub)))).
  reflexivity.
Defined.

Lemma same_identifier_witness :
  exists t g,
    tokenizer_obtained (trace (run hub_client (fresh full_hub))) = Some (Returned t) /\
    config_obtained (trace (run hub_client (fresh full_hub))) = Some (Returned g) /\
    tokenizer_saved (trace (run hub_client (fresh full_hub)))
      = Some (t, "./llama2_tokenizer") /\
    config_saved (trace (run hub_client (fresh full_hub))) = Some (g, "./llama2_config").
Proof.
  apply (proj2 (proj2 (proj2 (proj2 (same_identifier hub_client (fresh full_hub)))))).
  reflexivity.
Defined.

Lemma script_literals_witness :
  omap fetched_name (trace (run hub_client (fresh full_hub)))
    = ["meta-llama/Llama-2-7b-hf"; "meta-llama/Llama-2-7b-hf"] /\
  omap saved_to (trace (run hub_client (fresh full_hub)))
    = ["./llama2_tokenizer"; "./llama2_config"].
Proof.
  apply (proj1 (proj2 (script_literals hub_client (fresh full_hub)))).
  reflexivity.
Defined.

Lemma no_failure_is_caught_witness :
  (ending (run readonly_client (fresh full_hub)) = Uncaught "permission denied" /\
   length (trace (run readonly_client (fresh full_hub))) = 3 /\
   exit_status (ending (run readonly_client (fresh full_hub))) ≠ 0%Z) /\
  (ops (trace (run hub_client (fresh full_hub))) = four_steps /\
   ending (run hub_client (fresh full_hub)) = Finished tt /\
   exit_status (ending (run hub_client (fresh full_hub))) = 0%Z).
Proof.
  split.
  - apply (proj1 (no_failure_is_caught readonly_client (fresh full_hub)) 2
             (TokSave llama_tokenizer "./llama2_tokenizer" (Raised "permission denied")));
      reflexivity.
  - apply (proj2 (no_failure_is_caught hub_client (fresh full_hub))).
    intros ev H. vm_compute in H. in_trace H; by subst.
Defined.

Lemma failed_fetch_saves_nothing_witness :
  exit_status (ending (run hub_client (with_notes empty_hub))) ≠ 0%Z /\
  (forall ev, ev ∈ trace (run hub_client (with_notes empty_hub)) -> is_save ev = false) /\
  fs (final (run hub_client (with_notes empty_hub))) = fs (with_notes empty_hub).
Proof.
  apply (failed_fetch_saves_nothing hub_client (with_notes empty_hub)).
  left. exists "not found". reflexivity.
Defined.

Lemma fetches_before_saves_witness :
  trace (run hub_client (with_notes tokenizer_only_hub))
    = [TokFetch model_name (Returned llama_tokenizer);
       CfgFetch model_name (Raised "not found")] /\
  fs (final (run hub_client (with_notes tokenizer_only_hub)))
    = fs (with_notes tokenizer_only_hub).
Proof.
  apply (proj2 (proj2 (proj2
           (fetches_before_saves hub_client (with_notes tokenizer_only_hub)))));
    reflexivity.
Defined.





Lemma saves_are_the_only_writes_witness :
  fs (final (run hub_client (with_notes full_hub))) !! "./notes.txt"
    = Some (File "keep") /\
  fs (final (run hub_client (with_notes full_hub))) !! "./llama2_tokenizer" = Some Dir /\
  fs (final (run hub_client (with_notes full_hub))) !! "./llama2_config" = Some Dir.
Proof.
  destruct (saves_are_the_only_writes hub_client (with_notes full_hub))
    as (_ & _ & Hframe & Hdirs).
  split.
  - rewrite (Hframe MockFacts.hub_client_confined "./notes.txt");
      [reflexivity | exact id | exact id].
  - apply Hdirs;
      [apply MockFacts.hub_client_confined | apply MockFacts.hub_client_creates
      | reflexivity].
Defined.

Lemma same_answers_same_run_witness :
  trace (run hub_client (fresh full_hub))
    = trace (run hub_client (World ∅ (<["gpt2" := Repo None None]> full_hub))) /\
  ending (run hub_client (fresh full_hub))
    = ending (run hub_client (World ∅ (<["gpt2" := Repo None None]> full_hub))) /\
  exit_status (ending (run hub_client (fresh full_hub)))
    = exit_status (ending (run hub_client (World ∅ (<["gpt2" := Repo None None]> full_hub)))) /\
  fs (final (run hub_client (fresh full_hub)))
    = fs (final (run hub_client (World ∅ (<["gpt2" := Repo None None]> full_hub)))).
Proof.
  apply (same_answers_same_run hub_client hub_client (fresh full_hub)
           (World ∅ (<["gpt2" := Repo None None]> full_hub)));
    reflexivity.
Defined.

(** * Further properties of the script *)

Section Partial.
Context {Tok Cfg Exn Hub : Type}.
Implicit Types (c : client Tok Cfg Exn Hub) (w : world Hub).
Implicit Types (ev : event Tok Cfg Exn).

(** X1: the script does not roll back.  When the config save raises, the
    exit status is not zero although the tokenizer save had returned; with
    saves that keep to their directory, what the tokenizer save wrote under
    "./llama2_tokenizer" is still there at the end, and with saves that
    create their directory that directory exists. *)
Theorem config_save_failure_keeps_tokenizer c w (g0 : Cfg) (d0 : string) (e0 : Exn) :
  CfgSave g0 d0 (Raised e0) ∈ trace (run c w) ->
  exit_status (ending (run c w)) ≠ 0%Z /\
  exists t,
    TokSave t "./llama2_tokenizer" (Returned tt) ∈ trace (run c w) /\
    (save_confined c ->
       forall p, under "./llama2_tokenizer" p ->
         fs (final (run c w)) !! p
         = snd (tok_save_pretrained c t "./llama2_tokenizer" (fs w)) !! p) /\
    (save_confined c -> save_creates c ->
       fs (final (run c w)) !! "./llama2_tokenizer" = Some Dir).
Proof.
  intros H. by_cases c w; in_trace H; try discriminate.
  injection H as ? ? ?; subst. split; [done|]. exists t. split_and!.
  - trace_has.
  - intros Hconf p Hp. unfold fs2, fs1.
    apply Hconf. intros Hq. exact (destinations_disjoint p Hp Hq).
  - intros Hconf Hcr. unfold fs2.
    rewrite (proj2 (Hconf _ _ _ tokenizer_dir_not_in_config_dir)).
    by apply (Hcr "./llama2_tokenizer" (fs w)).
Qed.

(** X5: when the tokenizer save raises, the exit status is not zero, the
    config had already been fetched but is never saved, and with saves that
    keep to their directory nothing outside "./llama2_tokenizer" has
    changed, the config directory included. *)
Theorem tokenizer_save_failure_skips_config c w (t0 : Tok) (d0 : string) (e0 : Exn) :
  TokSave t0 d0 (Raised e0) ∈ trace (run c w) ->
  exit_status (ending (run c w)) ≠ 0%Z /\
  (exists g, config_obtained (trace (run c w)) = Some (Returned g)) /\
  config_saved (trace (run c w)) = None /\
  (save_confined c ->
     forall p, ¬ under "./llama2_tokenizer" p ->
       fs (final (run c w)) !! p = fs w !! p).
Proof.
  intros H. by_cases c w; in_trace H; try discriminate.
  injection H as ? ? ?; subst. split_and!; try done.
  - by exists g.
  - intros Hconf p Hp. by apply Hconf.
Qed.

(** X6: with saves that keep to their directory, each destination is
    written by its own save alone.  At the end of a run a path under
    "./llama2_tokenizer" holds what the tokenizer save left there, made on
    the filesystem the run started from, or what it held before the run if
    that save was not called: the config save does not alter it.  A path
    under "./llama2_config" holds what it held before the run if the config
    save was not called, and otherwise what the config save left there, made
    on a filesystem whose config directory was still as before the run: the
    tokenizer save does not alter it. *)
Theorem each_directory_written_by_its_own_save c w (p : string) :
  save_confined c ->
  (under "./llama2_tokenizer" p ->
     fs (final (run c w)) !! p =
     match tokenizer_saved (trace (run c w)) with
     | Some (t0, d0) => snd (tok_save_pretrained c t0 d0 (fs w)) !! p
     | None => fs w !! p
     end) /\
  (under "./llama2_config" p ->
     match config_saved (trace (run c w)) with
     | Some (g0, d0) =>
         exists f : FS,
           (forall q, under "./llama2_config" q -> f !! q = fs w !! q) /\
           fs (final (run c w)) !! p = snd (cfg_save_pretrained c g0 d0 f) !! p
     | None => fs (final (run c w)) !! p = fs w !! p
     end).
Proof.
  intros Hconf. split; intros Hp.
  - assert (Hn : ¬ under "./llama2_config" p)
      by (intros Hq; exact (destinations_disjoint p Hp Hq)).
    by_cases c w; cbn; try done; unfold fs2; by apply Hconf.
  - assert (Hn : ¬ under "./llama2_tokenizer" p)
      by (intros Hq; exact (destinations_disjoint p Hq Hp)).
    by_cases c w; cbn; try done.
    + by apply Hconf.
    + exists (fs1 c w t). split; [|done]. intros q Hq. apply Hconf.
      intros Hq'. exact (destinations_disjoint q Hq' Hq).
    + exists (fs1 c w t). split; [|done]. intros q Hq. apply Hconf.
      intros Hq'. exact (destinations_disjoint q Hq' Hq).
Qed.
End Partial.

(** ** The further properties on the test clients *)

Lemma config_save_failure_keeps_tokenizer_witness :
  exit_status (ending (run partial_client (fresh full_hub))) ≠ 0%Z /\
  exists t,
    TokSave t "./llama2_tokenizer" (Returned tt)
      ∈ trace (run partial_client (fresh full_hub)) /\
    (save_confined partial_client ->
       forall p, under "./llama2_tokenizer" p ->
         fs (final (run partial_client (fresh full_hub))) !! p
         = snd (tok_save_pretrained partial_client t "./llama2_tokenizer"
                  (fs (fresh full_hub))) !! p) /\
    (save_confined partial_client -> save_creates partial_client ->
       fs (final (run partial_client (fresh full_hub))) !! "./llama2_tokenizer"
       = Some Dir).
Proof.
  apply (config_save_failure_keeps_tokenizer partial_client (fresh full_hub)
           llama_config "./llama2_config" "disk full").
  vm_compute. trace_has.
Defined.

Lemma tokenizer_save_failure_skips_config_witness :
  exit_status (ending (run half_denied_client (with_notes full_hub))) ≠ 0%Z /\
  (exists g, config_obtained (trace (run half_denied_client (with_notes full_hub)))
             = Some (Returned g)) /\
  config_saved (trace (run half_denied_client (with_notes full_hub))) = None /\
  (save_confined half_denied_client ->
     forall p, ¬ under "./llama2_tokenizer" p ->
       fs (final (run half_denied_client (with_notes full_hub))) !! p
       = fs (with_notes full_hub) !! p).
Proof.
  apply (tokenizer_save_failure_skips_config half_denied_client (with_notes full_hub)
           llama_tokenizer "./llama2_tokenizer" "permission denied").
  vm_compute. trace_has.
Defined.

Lemma each_directory_written_by_its_own_save_witness :
  fs (final (run partial_client (with_notes full_hub))) !! "./llama2_tokenizer/tokenizer.model"
  = snd (tok_save_pretrained partial_client llama_tokenizer "./llama2_tokenizer"
           (fs (with_notes full_hub))) !! "./llama2_tokenizer/tokenizer.model".
Proof.
  apply (proj1 (each_directory_written_by_its_own_save partial_client
                  (with_notes full_hub) "./llama2_tokenizer/tokenizer.model"
                  MockFacts.partial_client_confined)).
  reflexivity.
Defined.
